(** * Study dashboard ([dashboard.py]): entity model, metrics and persistence

    A shallow embedding of [dashboard.py].  Python objects are records whose
    fields hold dynamically typed values ([pyval]); code that can raise
    returns a [result].  The [json] module and the file system are library
    code: a file holds either a JSON document, identified with the value it
    denotes, or text that [json.load] rejects.  Floating-point grades are
    idealised as rationals.  Console output ([print]) is not modelled. *)

From Stdlib Require Import ZArith QArith Ascii String.
From stdpp Require Import base strings list gmap.

#[local] Set Warnings "-register-all".
#[local] Open Scope Z_scope.

(** ** Python values *)

(** The values [json.load] can produce, which are also the values the
    entity fields are meant to hold: [None], [bool], [int], [float], [str],
    [list] and [dict] with string keys. *)
Inductive pyval : Type :=
| VNone
| VBool (b : bool)
| VInt (z : Z)
| VFloat (q : Q)
| VStr (s : string)
| VList (l : list pyval)
| VDict (d : gmap string pyval).

(** Exceptions raised by the modelled code; all derive from [Exception]. *)
Inductive exn : Type :=
| KeyError (k : string)
| TypeError
| AttributeError
| ValueError
| ZeroDivisionError
| OSError
| JSONDecodeError.

Inductive result (A : Type) : Type :=
| Ok (a : A)
| Raise (e : exn).
Arguments Ok {A} a.
Arguments Raise {A} e.

Definition bind {A B} (r : result A) (k : A → result B) : result B :=
  match r with
  | Ok a => k a
  | Raise e => Raise e
  end.

Notation "'let!' x ':=' r 'in' k" := (bind r (fun x => k))
  (at level 10, x name, r at level 100, k at level 200,
   format "'let!'  x  :=  r  'in'  '/' k").

(** [try: body / except Exception: handler]. *)
Definition try_except {A} (body : result A) (handler : exn → result A)
  : result A :=
  match body with
  | Ok a => Ok a
  | Raise e => handler e
  end.

Definition raises {A} (r : result A) : Prop := ∃ e, r = Raise e.

Definition result_map {A B} (f : A → B) (r : result A) : result B :=
  let! a := r in Ok (f a).

(** A [for] loop that threads the loop-carried variable [acc] through the
    body; an exception in the body leaves the loop. *)
Fixpoint for_each {A S} (l : list A) (body : S → A → result S) (acc : S)
  : result S :=
  match l with
  | [] => Ok acc
  | x :: l' => let! acc' := body acc x in for_each l' body acc'
  end.

(** A list comprehension [[f(x) for x in l]]. *)
Fixpoint comprehension {A B} (f : A → result B) (l : list A)
  : result (list B) :=
  match l with
  | [] => Ok []
  | x :: l' =>
      let! y := f x in
      let! ys := comprehension f l' in
      Ok (y :: ys)
  end.

(** ** Builtins *)

(** [data[k]] for a string [k]. *)
Definition py_getitem (data : pyval) (k : string) : result pyval :=
  match data with
  | VDict d =>
      match d !! k with
      | Some v => Ok v
      | None => Raise (KeyError k)
      end
  | _ => Raise TypeError
  end.

(** [data.get(k, default)]; [data.get(k)] is [py_get data k VNone]. *)
Definition py_get (data : pyval) (k : string) (dflt : pyval)
  : result pyval :=
  match data with
  | VDict d =>
      match d !! k with
      | Some v => Ok v
      | None => Ok dflt
      end
  | _ => Raise AttributeError
  end.

(** The items a [for] clause draws from a value: the elements of a list,
    the one-character strings of a string, the keys of a dict; other values
    are not iterable. *)
Fixpoint chars (s : string) : list pyval :=
  match s with
  | EmptyString => []
  | String c s' => VStr (String c EmptyString) :: chars s'
  end.

Definition py_iter (v : pyval) : result (list pyval) :=
  match v with
  | VList l => Ok l
  | VStr s => Ok (chars s)
  | VDict d => Ok (VStr <$> (map_to_list d).*1)
  | _ => Raise TypeError
  end.

(** [str.lower] on the ASCII letters.  Strings are UTF-8 byte strings; the
    bytes of a non-ASCII character are kept, which is exact for the one use
    in the program, a comparison of the lowered string with an ASCII
    literal without [k] or [i]: no non-ASCII character lowers to one of its
    letters. *)
Definition lower_char (c : ascii) : ascii :=
  let n := N_of_ascii c in
  if ((65 <=? n) && (n <=? 90))%N then ascii_of_N (n + 32) else c.

Definition upper_char (c : ascii) : ascii :=
  let n := N_of_ascii c in
  if ((97 <=? n) && (n <=? 122))%N then ascii_of_N (n - 32) else c.

Fixpoint lower (s : string) : string :=
  match s with
  | EmptyString => EmptyString
  | String c s' => String (lower_char c) (lower s')
  end.

(** [v.lower()]: only [str] has the method. *)
Definition py_lower (v : pyval) : result string :=
  match v with
  | VStr s => Ok (lower s)
  | _ => Raise AttributeError
  end.

(** Numbers: [bool] is a subclass of [int]. *)
Definition as_int (v : pyval) : option Z :=
  match v with
  | VInt z => Some z
  | VBool b => Some (if b then 1 else 0)
  | _ => None
  end.

Definition as_num (v : pyval) : option Q :=
  match v with
  | VFloat q => Some q
  | _ => inject_Z <$> as_int v
  end.

(** [a + b]: integer addition, float addition when one operand is a float,
    concatenation of two strings or two lists, [TypeError] otherwise. *)
Definition py_add (a b : pyval) : result pyval :=
  match as_int a, as_int b with
  | Some x, Some y => Ok (VInt (x + y))
  | _, _ =>
      match as_num a, as_num b with
      | Some x, Some y => Ok (VFloat (x + y))
      | _, _ =>
          match a, b with
          | VStr s, VStr t => Ok (VStr (s +:+ t))
          | VList l, VList k => Ok (VList (l ++ k))
          | _, _ => Raise TypeError
          end
      end
  end.

(** [a / b]: true division of numbers, always a float. *)
Definition py_truediv (a b : pyval) : result pyval :=
  match as_num a, as_num b with
  | Some x, Some y =>
      if Qeq_bool y 0 then Raise ZeroDivisionError else Ok (VFloat (x / y))
  | _, _ => Raise TypeError
  end.

(** [a * b] for numbers (the only use is [... * 100] on a float). *)
Definition py_mul (a b : pyval) : result pyval :=
  match as_int a, as_int b with
  | Some x, Some y => Ok (VInt (x * y))
  | _, _ =>
      match as_num a, as_num b with
      | Some x, Some y => Ok (VFloat (x * y))
      | _, _ => Raise TypeError
      end
  end.

(** [a > b] against a number [b] (the only use is [... > 0]): a numeric
    comparison, [TypeError] when [a] is not a number. *)
Definition py_gt (a b : pyval) : result bool :=
  match as_num a, as_num b with
  | Some x, Some y => Ok (negb (Qle_bool x y))
  | _, _ => Raise TypeError
  end.

(** [sum(l)]: starts from the integer [0]. *)
Definition py_sum (l : list pyval) : result pyval :=
  for_each l py_add (VInt 0).

(** The types of the annotations: [str], [int], [float] (an [int] is
    accepted where a [float] is expected), and [None] as the default of an
    optional field. *)
Definition is_str (v : pyval) : bool :=
  match v with VStr _ => true | _ => false end.

Definition is_int (v : pyval) : bool :=
  match v with VInt _ => true | _ => false end.

Definition is_float (v : pyval) : bool :=
  match v with VInt _ | VFloat _ => true | _ => false end.

Definition optional (p : pyval → bool) (v : pyval) : bool :=
  match v with VNone => true | _ => p v end.

(** ** Entity classes *)

(** Object identity ([id(obj)]); [Modul] defines no [__eq__], so [==] on
    module objects is identity. *)
Definition ref := positive.

(** [list.remove(x)] on a list of object references: drops the first item
    that is [x], [ValueError] when there is none. *)
Fixpoint list_remove (x : ref) (l : list ref) : result (list ref) :=
  match l with
  | [] => Raise ValueError
  | y :: l' =>
      if decide (y = x) then Ok l'
      else let! r := list_remove x l' in Ok (y :: r)
  end.

Module Pruefungsleistung.

Record t : Type := init { note : pyval; versuch : pyval }.

Definition to_dict (self : t) : pyval :=
  VDict {[ "note" := note self; "versuch" := versuch self ]}.

Definition from_dict (data : pyval) : result t :=
  let! n := py_getitem data "note" in
  let! v := py_getitem data "versuch" in
  Ok (init n v).

(** The fields have the annotated types ([note: float, versuch: int]). *)
Definition typed (self : t) : bool :=
  is_float (note self) && is_int (versuch self).

End Pruefungsleistung.

Module Modul.

Record t : Type := Build {
  modulName : pyval;
  ects : pyval;
  status : pyval;
  note : pyval;
  pruefungen : list Pruefungsleistung.t
}.

(** [__init__]; [note] defaults to [None] at the call site. *)
Definition init (modulName ects status note : pyval) : t :=
  Build modulName ects status note [].

Definition set_pruefungen (self : t) (ps : list Pruefungsleistung.t) : t :=
  Build (modulName self) (ects self) (status self) (note self) ps.

Definition addPruefungsleistung (self : t) (p : Pruefungsleistung.t) : t :=
  Build (modulName self) (ects self) (status self)
    (Pruefungsleistung.note p) (pruefungen self ++ [p]).

Definition getAktuelleNote (self : t) : pyval := note self.

Definition to_dict (self : t) : pyval :=
  VDict {[ "modulName" := modulName self;
           "ects" := ects self;
           "status" := status self;
           "note" := note self;
           "pruefungen" :=
             VList (Pruefungsleistung.to_dict <$> pruefungen self) ]}.

Definition from_dict (data : pyval) : result t :=
  let! n := py_getitem data "modulName" in
  let! e := py_getitem data "ects" in
  let! s := py_getitem data "status" in
  let! g := py_get data "note" VNone in
  let modul := init n e s g in
  let! ps := py_get data "pruefungen" (VList []) in
  let! items := py_iter ps in
  let! l := comprehension Pruefungsleistung.from_dict items in
  Ok (set_pruefungen modul l).

(** [modulName: str, ects: int, status: str, note: float = None]. *)
Definition typed (self : t) : bool :=
  is_str (modulName self) && is_int (ects self) && is_str (status self)
  && optional is_float (note self)
  && forallb Pruefungsleistung.typed (pruefungen self).

End Modul.

Module Semester.

(** The [module] list holds module objects: their states ([M := Modul.t])
    where only the contents matter, their references ([M := ref]) where
    identity does. *)
Record t_ (M : Type) : Type := Build {
  semesterNummer : pyval;
  startDatum : pyval;
  endDatum : pyval;
  module : list M
}.
Arguments Build {M} _ _ _ _.
Arguments semesterNummer {M} _.
Arguments startDatum {M} _.
Arguments endDatum {M} _.
Arguments module {M} _.

Abbreviation t := (t_ Modul.t).
Abbreviation obj := (t_ ref).

Definition init {M} (semesterNummer startDatum endDatum : pyval) : t_ M :=
  Build semesterNummer startDatum endDatum [].

Definition set_module {M N} (self : t_ M) (l : list N) : t_ N :=
  Build (semesterNummer self) (startDatum self) (endDatum self) l.

Definition addModul {M} (self : t_ M) (m : M) : t_ M :=
  set_module self (module self ++ [m]).

Definition removeModul (self : obj) (m : ref) : result obj :=
  let! l := list_remove m (module self) in
  Ok (set_module self l).

(** The tree a semester object stands for in a store of module states. *)
Definition deref (σ : gmap ref Modul.t) (self : obj) : option t :=
  set_module self <$> mapM (λ r, σ !! r) (module self).

Definition to_dict (self : t) : pyval :=
  VDict {[ "semesterNummer" := semesterNummer self;
           "startDatum" := startDatum self;
           "endDatum" := endDatum self;
           "module" := VList (Modul.to_dict <$> module self) ]}.

Definition from_dict (data : pyval) : result t :=
  let! n := py_getitem data "semesterNummer" in
  let! s := py_get data "startDatum" VNone in
  let! e := py_get data "endDatum" VNone in
  let sem : t := init n s e in
  let! ms := py_get data "module" (VList []) in
  let! items := py_iter ms in
  let! l := comprehension Modul.from_dict items in
  Ok (set_module sem l).

(** [semesterNummer: int, startDatum: str = None, endDatum: str = None]. *)
Definition typed (self : t) : bool :=
  is_int (semesterNummer self) && optional is_str (startDatum self)
  && optional is_str (endDatum self)
  && forallb Modul.typed (module self).

End Semester.

Module Studiengang.

Record t : Type := Build {
  name : pyval;
  gesamtECTS : pyval;
  semester : list Semester.t
}.

Definition init (name gesamtECTS : pyval) : t := Build name gesamtECTS [].

Definition set_semester (self : t) (l : list Semester.t) : t :=
  Build (name self) (gesamtECTS self) l.

Definition addSemester (self : t) (s : Semester.t) : t :=
  set_semester self (semester self ++ [s]).

(** The list [noten] after the two nested loops. *)
Definition collect_noten (self : t) : list pyval :=
  foldl (λ noten sem,
    foldl (λ noten mod',
      match Modul.note mod' with
      | VNone => noten
      | n => noten ++ [n]
      end) noten (Semester.module sem)) [] (semester self).

Definition getNotendurchschnitt (self : t) : result pyval :=
  let noten := collect_noten self in
  match noten with
  | [] => Ok (VFloat 0)
  | _ :: _ =>
      let! s := py_sum noten in
      py_truediv s (VInt (Z.of_nat (length noten)))
  end.

Definition getFortschrittECTS (self : t) : result pyval :=
  for_each (semester self) (λ earned sem,
    for_each (Semester.module sem) (λ earned mod',
      let! lowered := py_lower (Modul.status mod') in
      if String.eqb lowered "abgeschlossen"
      then py_add earned (Modul.ects mod')
      else Ok earned) earned) (VInt 0).

Definition to_dict (self : t) : pyval :=
  VDict {[ "name" := name self;
           "gesamtECTS" := gesamtECTS self;
           "semester" := VList (Semester.to_dict <$> semester self) ]}.

Definition from_dict (data : pyval) : result t :=
  let! n := py_getitem data "name" in
  let! g := py_getitem data "gesamtECTS" in
  let stg := init n g in
  let! ss := py_get data "semester" (VList []) in
  let! items := py_iter ss in
  let! l := comprehension Semester.from_dict items in
  Ok (set_semester stg l).

(** [name: str, gesamtECTS: int]. *)
Definition typed (self : t) : bool :=
  is_str (name self) && is_int (gesamtECTS self)
  && forallb Semester.typed (semester self).

End Studiengang.

(** ** Service classes *)

Module DashboardService.



(** The two assignments of [displayDashboard] that compute
    [progress_percentage]; the rest of the method formats and prints. *)
Definition progress_percentage (stg : Studiengang.t) : result pyval :=
  let! earned_ects := Studiengang.getFortschrittECTS stg in
  let! positive := py_gt (Studiengang.gesamtECTS stg) (VInt 0) in
  if positive : bool
  then let! ratio := py_truediv earned_ects (Studiengang.gesamtECTS stg) in
       py_mul ratio (VInt 100)
  else Ok (VInt 0).

End DashboardService.

(** What a file holds: a JSON document, identified with the value
    [json.load] returns for it ([json.load] inverts [json.dump] on [pyval]),
    or text that [json.load] rejects. *)
Inductive content : Type :=
| Json (v : pyval)
| Malformed (text : string).

(** The files by name, and the names [open(_, "w")] refuses. *)
Record filesystem : Type := {
  files : gmap string content;
  readonly : gset string
}.

Module PersistenceService.

(** [open(datei, "w")] followed by [json.dump(v, f)]. *)
Definition dump_to (fs : filesystem) (datei : string) (v : pyval)
  : result filesystem :=
  if decide (datei ∈ readonly fs) then Raise OSError
  else Ok {| files := <[datei := Json v]> (files fs);
             readonly := readonly fs |}.

(** [open(datei, "r")] followed by [json.load(f)]. *)
Definition load_from (fs : filesystem) (datei : string) : result pyval :=
  match files fs !! datei with
  | None => Raise OSError
  | Some (Malformed _) => Raise JSONDecodeError
  | Some (Json v) => Ok v
  end.

(** Returns the file system after the call. *)
Definition saveData (fs : filesystem) (datei : string) (stg : Studiengang.t)
  : result filesystem :=
  try_except
    (dump_to fs datei (Studiengang.to_dict stg))
    (λ e, Ok fs).

Definition loadData (fs : filesystem) (datei : string)
  : result (option Studiengang.t) :=
  try_except
    (let! data := load_from fs datei in
     let! stg := Studiengang.from_dict data in
     Ok (Some stg))
    (λ e, Ok None).

End PersistenceService.

(** ** The notions of the specification *)

(** Every module of every semester, in stored order. *)
Definition all_modules (stg : Studiengang.t) : list Modul.t :=
  concat (Semester.module <$> Studiengang.semester stg).

(** Two characters are the same letter up to case. *)
Definition same_letter (c c' : ascii) : bool :=
  Ascii.eqb c' c || Ascii.eqb c' (upper_char c) || Ascii.eqb c' (lower_char c).

(** Two strings differ at most in the case of their letters. *)
Fixpoint case_variant (s s' : string) : bool :=
  match s, s' with
  | EmptyString, EmptyString => true
  | String c r, String c' r' => same_letter c c' && case_variant r r'
  | _, _ => false
  end.

Definition completion_keyword : string := "abgeschlossen".

(** The status matches the completion keyword case-insensitively. *)
Definition is_completed (m : Modul.t) : bool :=
  match Modul.status m with
  | VStr s => case_variant s completion_keyword
  | _ => false
  end.

Definition credit_points (m : Modul.t) : Z :=
  match Modul.ects m with
  | VInt z => z
  | _ => 0
  end.

(** The sum of the credit points of the completed modules. *)
Definition completed_credits (ms : list Modul.t) : Z :=
  foldr Z.add 0 (credit_points <$> List.filter is_completed ms).

Definition spec_earned_credits (stg : Studiengang.t) : Z :=
  completed_credits (all_modules stg).










(** A record with exactly the keys [ks] whose [child] key holds a list of
    records satisfying [P]. *)
Definition has_shape (ks : gset string) (child : string)
    (P : pyval → Prop) (v : pyval) : Prop :=
  ∃ d l, v = VDict d ∧ dom d = ks ∧ d !! child = Some (VList l) ∧ Forall P l.

Definition pruefung_shape (v : pyval) : Prop :=
  ∃ d, v = VDict d ∧ dom d = {[ "note"; "versuch" ]}.

Definition modul_shape : pyval → Prop :=
  has_shape {[ "modulName"; "ects"; "status"; "note"; "pruefungen" ]}
    "pruefungen" pruefung_shape.

Definition semester_shape : pyval → Prop :=
  has_shape {[ "semesterNummer"; "startDatum"; "endDatum"; "module" ]}
    "module" modul_shape.

Definition studiengang_shape : pyval → Prop :=
  has_shape {[ "name"; "gesamtECTS"; "semester" ]} "semester" semester_shape.


(** A serialized record that lacks a required field, at any level. *)
Inductive pruefung_lacks : pyval → Prop :=
| pruefung_lacks_key k d :
    k ∈ ["note"; "versuch"] → d !! k = None → pruefung_lacks (VDict d).

Inductive modul_lacks : pyval → Prop :=
| modul_lacks_key k d :
    k ∈ ["modulName"; "ects"; "status"] → d !! k = None →
    modul_lacks (VDict d)
| modul_lacks_child d l p :
    d !! "pruefungen" = Some (VList l) → p ∈ l → pruefung_lacks p →
    modul_lacks (VDict d).

Inductive semester_lacks : pyval → Prop :=
| semester_lacks_key d :
    d !! "semesterNummer" = None → semester_lacks (VDict d)
| semester_lacks_child d l m :
    d !! "module" = Some (VList l) → m ∈ l → modul_lacks m →
    semester_lacks (VDict d).

Inductive studiengang_lacks : pyval → Prop :=
| studiengang_lacks_key k d :
    k ∈ ["name"; "gesamtECTS"] → d !! k = None → studiengang_lacks (VDict d)
| studiengang_lacks_child d l s :
    d !! "semester" = Some (VList l) → s ∈ l → semester_lacks s →
    studiengang_lacks (VDict d).

(** ** The program built by [main] *)

Definition mathe : Modul.t :=
  Modul.addPruefungsleistung
    (Modul.init (VStr "Mathe I") (VInt 8) (VStr "Abgeschlossen") (VFloat 2.3))
    (Pruefungsleistung.init (VFloat 2.3) (VInt 1)).

Definition programmierung : Modul.t :=
  Modul.init (VStr "Programmierung") (VInt 10) (VStr "In Bearbeitung") VNone.

Definition datenbanken : Modul.t :=
  Modul.addPruefungsleistung
    (Modul.init (VStr "Datenbanken") (VInt 6) (VStr "Abgeschlossen")
       (VFloat 2.0))
    (Pruefungsleistung.init (VFloat 2.0) (VInt 1)).

Definition sem1 : Semester.t :=
  Semester.addModul
    (Semester.addModul
       (Semester.init (VInt 1) (VStr "2023-10-01") (VStr "2024-03-31")) mathe)
    programmierung.

Definition sem2 : Semester.t :=
  Semester.addModul
    (Semester.init (VInt 2) (VStr "2024-04-01") (VStr "2024-09-30"))
    datenbanken.

Definition main_stg : Studiengang.t :=
  Studiengang.addSemester
    (Studiengang.addSemester
       (Studiengang.init (VStr "Angewandte KI") (VInt 180)) sem1)
    sem2.

Definition dateiname : string := "studiengang.json".


(** The items of a child list: [data.get(k, [])] iterated and rebuilt. *)
Definition children {A} (f : pyval → result A) (d : gmap string pyval)
    (k : string) : result (list A) :=
  let! items := py_iter (default (VList []) (d !! k)) in
  comprehension f items.

(** The stored final grade of a module, when it is not [None]. *)
Definition present_note (m : Modul.t) : option pyval :=
  match Modul.note m with
  | VNone => None
  | v => Some v
  end.

Definition is_list (v : pyval) : bool :=
  match v with VList _ => true | _ => false end.

(** The values other than lists that a [for] clause runs over without
    finding an item: the empty string and the empty dict. *)
Definition no_items (v : pyval) : bool :=
  match v with
  | VStr s => String.eqb s ""
  | VDict d => (size d =? 0)%nat
  | _ => false
  end.

(** Two modules with the same status and the same credit points, whatever
    their names, grades and attempts. *)
Definition same_credit_data (m m' : Modul.t) : Prop :=
  Modul.status m = Modul.status m' ∧ Modul.ects m = Modul.ects m'.

(** The credit points of all modules, completed or not. *)
Definition total_credits (ms : list Modul.t) : Z :=
  foldr Z.add 0 (credit_points <$> ms).

(** ** Basic facts *)

Lemma list_remove_first (x : ref) (l : list ref) :
  x ∈ l →
  ∃ i, l !! i = Some x ∧ (∀ j, (j < i)%nat → l !! j ≠ Some x) ∧
       list_remove x l = Ok (delete i l).
Proof.
  induction l as [|y l IH]; intros Hin.
  - by apply elem_of_nil in Hin.
  - simpl. destruct (decide (y = x)) as [->|Hne].
    + exists 0%nat. split_and!; [done | lia | done].
    + apply elem_of_cons in Hin as [Heq|Hin]; [congruence|].
      destruct (IH Hin) as (i & Hi & Hfirst & Hrem).
      exists (S i). rewrite Hrem. split_and!; [done | | done].
      intros [|j] Hj; simpl; [congruence | apply Hfirst; lia].
Qed.

Lemma foldl_addPruefungsleistung_snoc m ps p :
  foldl Modul.addPruefungsleistung m (ps ++ [p]) =
  Modul.addPruefungsleistung (foldl Modul.addPruefungsleistung m ps) p.
Proof. by rewrite foldl_app. Qed.

(** ** Appending an exam attempt *)

(** C4: [addPruefungsleistung] puts the attempt at the end of the module's
    attempts, keeps the earlier attempts and the other fields, and sets the
    module's final grade to the grade of the new attempt whatever grade the
    module had; hence after any non-empty series of appends the final grade
    is the grade of the attempt appended last. *)
Theorem addPruefungsleistung_appends_and_overwrites
    (m : Modul.t) (p : Pruefungsleistung.t) :
  let m' := Modul.addPruefungsleistung m p in
  Modul.pruefungen m' = Modul.pruefungen m ++ [p] ∧
  last (Modul.pruefungen m') = Some p ∧
  Modul.note m' = Pruefungsleistung.note p ∧
  Modul.getAktuelleNote m' = Pruefungsleistung.note p ∧
  (Modul.modulName m', Modul.ects m', Modul.status m') =
    (Modul.modulName m, Modul.ects m, Modul.status m) ∧
  ∀ ps, Modul.note (foldl Modul.addPruefungsleistung m (ps ++ [p])) =
        Pruefungsleistung.note p.
Proof.
  simpl. split_and!; try reflexivity.
  - apply last_snoc.
  - intros ps. by rewrite foldl_addPruefungsleistung_snoc.
Qed.

(** ** Removing a module *)

(** C9: for a module held by the semester, [removeModul] succeeds and
    deletes one entry of the module list, the first one that is this
    module; every other entry stays, in the same order, and the other
    fields of the semester are kept.  The tree the semester stands for
    loses the module state at that position and nothing else. *)
Theorem removeModul_removes_exactly_that_module
    (self : Semester.obj) (m : ref) :
  m ∈ Semester.module self →
  ∃ i,
    Semester.module self !! i = Some m ∧
    (∀ j, (j < i)%nat → Semester.module self !! j ≠ Some m) ∧
    Semester.removeModul self m =
      Ok (Semester.set_module self (delete i (Semester.module self))) ∧
    ∀ σ tree, Semester.deref σ self = Some tree →
      Semester.deref σ
        (Semester.set_module self (delete i (Semester.module self))) =
      Some (Semester.set_module tree (delete i (Semester.module tree))).
Proof.
  intros Hin. destruct (list_remove_first m _ Hin) as (i & Hi & Hfirst & Hrem).
  exists i. split_and!; [done | done | |].
  - unfold Semester.removeModul. by rewrite Hrem.
  - intros σ tree. unfold Semester.deref. simpl.
    destruct (mapM _ (Semester.module self)) as [k|] eqn:Hk; [|done].
    intros [= <-]. simpl.
    apply mapM_Some in Hk.
    pose proof (Forall2_delete _ _ _ i Hk) as Hd.
    apply mapM_Some in Hd. by rewrite Hd.
Qed.

Lemma removeModul_removes_exactly_that_module_witness :
  ∃ i,
    [3; 5; 3; 7]%positive !! i = Some 5%positive ∧
    Semester.removeModul
      (Semester.Build (VInt 1) VNone VNone [3; 5; 3; 7]%positive) 5%positive =
    Ok (Semester.Build (VInt 1) VNone VNone (delete i [3; 5; 3; 7]%positive)).
Proof.
  destruct (removeModul_removes_exactly_that_module
              (Semester.Build (VInt 1) VNone VNone [3; 5; 3; 7]%positive)
              5%positive) as (i & Hi & _ & Hrem & _).
  - simpl. apply list_elem_of_further, list_elem_of_here.
  - exists i. split; [exact Hi | exact Hrem].
Defined.

(** ** Reconstruction from serialized records *)

Lemma Pruefungsleistung_from_dict_eq d :
  Pruefungsleistung.from_dict (VDict d) =
  match d !! "note", d !! "versuch" with
  | None, _ => Raise (KeyError "note")
  | Some _, None => Raise (KeyError "versuch")
  | Some n, Some v => Ok (Pruefungsleistung.init n v)
  end.
Proof.
  unfold Pruefungsleistung.from_dict, py_getitem.
  by destruct (d !! "note"), (d !! "versuch").
Qed.

Lemma Modul_from_dict_eq d :
  Modul.from_dict (VDict d) =
  match d !! "modulName", d !! "ects", d !! "status" with
  | None, _, _ => Raise (KeyError "modulName")
  | Some _, None, _ => Raise (KeyError "ects")
  | Some _, Some _, None => Raise (KeyError "status")
  | Some n, Some e, Some s =>
      result_map (Modul.Build n e s (default VNone (d !! "note")))
        (children Pruefungsleistung.from_dict d "pruefungen")
  end.
Proof.
  unfold Modul.from_dict, py_getitem, py_get, children, result_map.
  destruct (d !! "modulName"), (d !! "ects"), (d !! "status"),
    (d !! "note"), (d !! "pruefungen"); simpl; try done.
  all: destruct (py_iter _); simpl; try done.
  all: by destruct (comprehension _ _).
Qed.

Lemma Semester_from_dict_eq d :
  Semester.from_dict (VDict d) =
  match d !! "semesterNummer" with
  | None => Raise (KeyError "semesterNummer")
  | Some n =>
      result_map
        (Semester.Build n (default VNone (d !! "startDatum"))
           (default VNone (d !! "endDatum")))
        (children Modul.from_dict d "module")
  end.
Proof.
  unfold Semester.from_dict, py_getitem, py_get, children, result_map.
  destruct (d !! "semesterNummer"), (d !! "startDatum"),
    (d !! "endDatum"), (d !! "module"); simpl; try done.
  all: destruct (py_iter _); simpl; try done.
  all: by destruct (comprehension _ _).
Qed.

Lemma Studiengang_from_dict_eq d :
  Studiengang.from_dict (VDict d) =
  match d !! "name", d !! "gesamtECTS" with
  | None, _ => Raise (KeyError "name")
  | Some _, None => Raise (KeyError "gesamtECTS")
  | Some n, Some g =>
      result_map (Studiengang.Build n g)
        (children Semester.from_dict d "semester")
  end.
Proof.
  unfold Studiengang.from_dict, py_getitem, py_get, children, result_map.
  destruct (d !! "name"), (d !! "gesamtECTS"), (d !! "semester");
    simpl; try done.
  all: destruct (py_iter _); simpl; try done.
  all: by destruct (comprehension _ _).
Qed.

Lemma children_delete_ne {A} (f : pyval → result A) d k k' :
  k' ≠ k → children f (delete k' d) k = children f d k.
Proof. intros Hne. unfold children. by rewrite lookup_delete_ne. Qed.

Lemma result_map_compose {A B C} (g : B → C) (f : A → B) r :
  result_map g (result_map f r) = result_map (λ a, g (f a)) r.
Proof. by destruct r. Qed.

(** C8: a semester record without [startDatum] (or [endDatum]) is
    reconstructed with that field [None]; reconstruction from the record
    with the field removed gives what the record with the field gives, with
    the field reset to [None], so the missing field causes no error. *)
Theorem Semester_from_dict_missing_date (d : gmap string pyval) :
  (d !! "startDatum" = None →
   ∀ s, Semester.from_dict (VDict d) = Ok s → Semester.startDatum s = VNone) ∧
  (d !! "endDatum" = None →
   ∀ s, Semester.from_dict (VDict d) = Ok s → Semester.endDatum s = VNone) ∧
  Semester.from_dict (VDict (delete "startDatum" d)) =
    result_map
      (λ s, Semester.Build (Semester.semesterNummer s) VNone
              (Semester.endDatum s) (Semester.module s))
      (Semester.from_dict (VDict d)) ∧
  Semester.from_dict (VDict (delete "endDatum" d)) =
    result_map
      (λ s, Semester.Build (Semester.semesterNummer s)
              (Semester.startDatum s) VNone (Semester.module s))
      (Semester.from_dict (VDict d)).
Proof.
  rewrite !Semester_from_dict_eq.
  rewrite !children_delete_ne by done.
  rewrite !lookup_delete_eq. rewrite !lookup_delete_ne by done.
  destruct (d !! "semesterNummer") as [n|]; simpl.
  - rewrite !result_map_compose. simpl. split_and!; try done.
    + intros ->. intros s. destruct (children _ _ _); simpl; [|done].
      by intros [= <-].
    + intros ->. intros s. destruct (children _ _ _); simpl; [|done].
      by intros [= <-].
  - by split_and!.
Qed.

Lemma Semester_from_dict_missing_date_witness :
  Semester.from_dict (VDict {[ "semesterNummer" := VInt 1;
                               "endDatum" := VStr "2024-03-31" ]}) =
    Ok (Semester.Build (VInt 1) VNone (VStr "2024-03-31") []) ∧
  Semester.startDatum
    (Semester.Build (VInt 1) VNone (VStr "2024-03-31") [] : Semester.t) =
    VNone.
Proof.
  assert (H : Semester.from_dict
                (VDict {[ "semesterNummer" := VInt 1;
                          "endDatum" := VStr "2024-03-31" ]}) =
              Ok (Semester.Build (VInt 1) VNone (VStr "2024-03-31") []))
    by reflexivity.
  split; [exact H|].
  apply (proj1 (Semester_from_dict_missing_date
                  {[ "semesterNummer" := VInt 1;
                     "endDatum" := VStr "2024-03-31" ]}));
    [reflexivity | exact H].
Defined.

(** C10: a record without its child-list key is reconstructed with an
    empty child sequence, at each of the three levels, and a file holding
    such a program record loads. *)
Theorem from_dict_missing_child_list (d : gmap string pyval) :
  (∀ n g, d !! "name" = Some n → d !! "gesamtECTS" = Some g →
     d !! "semester" = None →
     Studiengang.from_dict (VDict d) = Ok (Studiengang.Build n g []) ∧
     ∀ fs datei, files fs !! datei = Some (Json (VDict d)) →
       PersistenceService.loadData fs datei =
       Ok (Some (Studiengang.Build n g []))) ∧
  (∀ n, d !! "semesterNummer" = Some n → d !! "module" = None →
     Semester.from_dict (VDict d) =
     Ok (Semester.Build n (default VNone (d !! "startDatum"))
           (default VNone (d !! "endDatum")) [])) ∧
  (∀ n e s, d !! "modulName" = Some n → d !! "ects" = Some e →
     d !! "status" = Some s → d !! "pruefungen" = None →
     Modul.from_dict (VDict d) =
     Ok (Modul.Build n e s (default VNone (d !! "note")) [])).
Proof.
  split_and!.
  - intros n g Hn Hg Hs.
    assert (Studiengang.from_dict (VDict d) = Ok (Studiengang.Build n g []))
      as Hfrom.
    { rewrite Studiengang_from_dict_eq, Hn, Hg. unfold children.
      by rewrite Hs. }
    split; [done|]. intros fs datei Hfile.
    unfold PersistenceService.loadData, PersistenceService.load_from.
    rewrite Hfile. simpl. by rewrite Hfrom.
  - intros n Hn Hm. rewrite Semester_from_dict_eq, Hn. unfold children.
    by rewrite Hm.
  - intros n e s Hn He Hs Hp. rewrite Modul_from_dict_eq, Hn, He, Hs.
    unfold children. by rewrite Hp.
Qed.

Lemma from_dict_missing_child_list_witness :
  Studiengang.from_dict
    (VDict {[ "name" := VStr "Angewandte KI"; "gesamtECTS" := VInt 180 ]}) =
  Ok (Studiengang.Build (VStr "Angewandte KI") (VInt 180) []).
Proof.
  apply (proj1 (from_dict_missing_child_list
                  {[ "name" := VStr "Angewandte KI";
                     "gesamtECTS" := VInt 180 ]})
           (VStr "Angewandte KI") (VInt 180)); reflexivity.
Defined.

(** ** Round trip *)

Lemma comprehension_fmap {A B} (f : B → result A) (g : A → B) (l : list A) :
  (∀ x, f (g x) = Ok x) → comprehension f (g <$> l) = Ok l.
Proof.
  intros Hfg. induction l as [|x l IH]; [done|].
  rewrite fmap_cons. cbn [comprehension]. by rewrite Hfg, IH.
Qed.

Lemma Pruefungsleistung_round_trip p :
  Pruefungsleistung.from_dict (Pruefungsleistung.to_dict p) = Ok p.
Proof. by destruct p. Qed.

Lemma Modul_round_trip m : Modul.from_dict (Modul.to_dict m) = Ok m.
Proof.
  destruct m as [n e s g ps]. unfold Modul.to_dict.
  rewrite Modul_from_dict_eq. simpl.
  change (children _ _ _) with
    (comprehension Pruefungsleistung.from_dict
       (Pruefungsleistung.to_dict <$> ps)).
  by rewrite comprehension_fmap by apply Pruefungsleistung_round_trip.
Qed.

Lemma Semester_round_trip s : Semester.from_dict (Semester.to_dict s) = Ok s.
Proof.
  destruct s as [n a b ms]. unfold Semester.to_dict.
  rewrite Semester_from_dict_eq. simpl.
  change (children _ _ _) with
    (comprehension Modul.from_dict (Modul.to_dict <$> ms)).
  by rewrite comprehension_fmap by apply Modul_round_trip.
Qed.



Lemma loadData_of_document fs datei v :
  files fs !! datei = Some (Json v) →
  PersistenceService.loadData fs datei =
  match Studiengang.from_dict v with
  | Ok stg => Ok (Some stg)
  | Raise _ => Ok None
  end.
Proof.
  intros Hf. unfold PersistenceService.loadData, PersistenceService.load_from.
  rewrite Hf. simpl. by destruct (Studiengang.from_dict v).
Qed.



(** ** Field names of the serialized form *)

Lemma Pruefungsleistung_to_dict_shape p :
  pruefung_shape (Pruefungsleistung.to_dict p).
Proof. eexists. split; [reflexivity|]. set_solver. Qed.

Lemma Modul_to_dict_shape m : modul_shape (Modul.to_dict m).
Proof.
  eexists _, _. split_and!; [reflexivity | set_solver | reflexivity |].
  apply Forall_fmap, Forall_true, Pruefungsleistung_to_dict_shape.
Qed.

Lemma Semester_to_dict_shape s : semester_shape (Semester.to_dict s).
Proof.
  eexists _, _. split_and!; [reflexivity | set_solver | reflexivity |].
  apply Forall_fmap, Forall_true, Modul_to_dict_shape.
Qed.

Lemma Studiengang_to_dict_shape stg :
  studiengang_shape (Studiengang.to_dict stg).
Proof.
  eexists _, _. split_and!; [reflexivity | set_solver | reflexivity |].
  apply Forall_fmap, Forall_true, Semester_to_dict_shape.
Qed.




(** ** Failures during load and save *)

Lemma raises_result_map {A B} (f : A → B) r :
  raises r → raises (result_map f r).
Proof. intros [e ->]. by exists e. Qed.

Lemma comprehension_raises {A B} (f : A → result B) l x :
  x ∈ l → raises (f x) → raises (comprehension f l).
Proof.
  intros Hin Hx. induction Hin as [x l|x y l Hin IH]; simpl.
  - destruct Hx as [e ->]. by exists e.
  - destruct (f y) as [b|e]; simpl; [|by exists e].
    destruct (IH Hx) as [e ->]. by exists e.
Qed.

Lemma children_raises {A} (f : pyval → result A) d k l x :
  d !! k = Some (VList l) → x ∈ l → raises (f x) → raises (children f d k).
Proof.
  intros Hk Hin Hx. unfold children. rewrite Hk. simpl.
  by eapply comprehension_raises.
Qed.

Lemma pruefung_lacks_raises p :
  pruefung_lacks p → raises (Pruefungsleistung.from_dict p).
Proof.
  intros [k d Hk Hd]. rewrite Pruefungsleistung_from_dict_eq.
  repeat (apply elem_of_cons in Hk as [->|Hk]; [rewrite Hd|]).
  - by eexists.
  - destruct (d !! "note"); by eexists.
  - by apply elem_of_nil in Hk.
Qed.

Lemma modul_lacks_raises m : modul_lacks m → raises (Modul.from_dict m).
Proof.
  intros [k d Hk Hd|d l p Hl Hin Hp]; rewrite Modul_from_dict_eq.
  - repeat (apply elem_of_cons in Hk as [->|Hk]; [rewrite Hd|]).
    + by eexists.
    + destruct (d !! "modulName"); by eexists.
    + destruct (d !! "modulName"), (d !! "ects"); by eexists.
    + by apply elem_of_nil in Hk.
  - destruct (d !! "modulName"), (d !! "ects"), (d !! "status");
      try by eexists.
    eapply raises_result_map, children_raises; eauto.
    by apply pruefung_lacks_raises.
Qed.

Lemma semester_lacks_raises s :
  semester_lacks s → raises (Semester.from_dict s).
Proof.
  intros [d Hd|d l m Hl Hin Hm]; rewrite Semester_from_dict_eq.
  - rewrite Hd. by eexists.
  - destruct (d !! "semesterNummer"); [|by eexists].
    eapply raises_result_map, children_raises; eauto.
    by apply modul_lacks_raises.
Qed.

Lemma studiengang_lacks_raises v :
  studiengang_lacks v → raises (Studiengang.from_dict v).
Proof.
  intros [k d Hk Hd|d l s Hl Hin Hs]; rewrite Studiengang_from_dict_eq.
  - repeat (apply elem_of_cons in Hk as [->|Hk]; [rewrite Hd|]).
    + by eexists.
    + destruct (d !! "name"); by eexists.
    + by apply elem_of_nil in Hk.
  - destruct (d !! "name"), (d !! "gesamtECTS"); try by eexists.
    eapply raises_result_map, children_raises; eauto.
    by apply semester_lacks_raises.
Qed.

(** C6: [loadData] and [saveData] always return, whatever the resource
    holds; [loadData] returns [None] when the resource is unavailable, when
    its content does not parse, when reconstruction raises for any reason,
    and in particular when a required field ([name], [gesamtECTS],
    [semesterNummer], [modulName], [ects], [status], and [note], [versuch]
    of an attempt) is missing at any level; a failed save leaves the
    resources as they were. *)
Theorem loadData_absent_on_failure (fs : filesystem) (datei : string) :
  (∃ r, PersistenceService.loadData fs datei = Ok r) ∧
  (∀ stg, ∃ fs', PersistenceService.saveData fs datei stg = Ok fs') ∧
  (∀ stg, datei ∈ readonly fs →
     PersistenceService.saveData fs datei stg = Ok fs) ∧
  (files fs !! datei = None →
     PersistenceService.loadData fs datei = Ok None) ∧
  (∀ text, files fs !! datei = Some (Malformed text) →
     PersistenceService.loadData fs datei = Ok None) ∧
  (∀ v, files fs !! datei = Some (Json v) →
     raises (Studiengang.from_dict v) →
     PersistenceService.loadData fs datei = Ok None) ∧
  (∀ v, files fs !! datei = Some (Json v) → studiengang_lacks v →
     PersistenceService.loadData fs datei = Ok None).
Proof.
  assert (Hraise : ∀ v, files fs !! datei = Some (Json v) →
            raises (Studiengang.from_dict v) →
            PersistenceService.loadData fs datei = Ok None).
  { intros v Hf [e He]. rewrite (loadData_of_document _ _ _ Hf). by rewrite He. }
  split_and!.
  - unfold PersistenceService.loadData.
    destruct (let! data := _ in _); simpl; eauto.
  - intros stg. unfold PersistenceService.saveData.
    destruct (PersistenceService.dump_to _ _ _); simpl; eauto.
  - intros stg Hro.
    unfold PersistenceService.saveData, PersistenceService.dump_to.
    by rewrite decide_True.
  - intros Hf. unfold PersistenceService.loadData, PersistenceService.load_from.
    by rewrite Hf.
  - intros text Hf.
    unfold PersistenceService.loadData, PersistenceService.load_from.
    by rewrite Hf.
  - exact Hraise.
  - intros v Hf Hl. by eapply Hraise, studiengang_lacks_raises.
Qed.

Lemma loadData_absent_on_failure_witness :
  PersistenceService.loadData
    {| files :=
         {[ dateiname :=
              Json (VDict {[
                "name" := VStr "Angewandte KI";
                "gesamtECTS" := VInt 180;
                "semester" := VList [VDict {[
                  "semesterNummer" := VInt 1;
                  "module" := VList [VDict {[
                    "modulName" := VStr "Mathe I";
                    "status" := VStr "Abgeschlossen" ]}] ]}] ]}) ]};
       readonly := ∅ |} dateiname = Ok None.
Proof.
  eapply loadData_absent_on_failure; [reflexivity|].
  eapply studiengang_lacks_child;
    [reflexivity | apply list_elem_of_here |].
  eapply semester_lacks_child;
    [reflexivity | apply list_elem_of_here |].
  apply (modul_lacks_key "ects");
    [apply list_elem_of_further, list_elem_of_here | reflexivity].
Defined.

(** ** Letter case *)

Lemma ascii_enumerated (c : ascii) : In c (map ascii_of_nat (seq 0 256)).
Proof.
  apply in_map_iff. exists (nat_of_ascii c). split.
  - apply ascii_nat_embedding.
  - apply in_seq. pose proof (nat_ascii_bounded c). lia.
Qed.

Lemma same_letter_lower (c c' : ascii) :
  same_letter c c' = Ascii.eqb (lower_char c) (lower_char c').
Proof.
  assert (H : forallb (λ a, forallb (λ b,
                Bool.eqb (same_letter a b)
                  (Ascii.eqb (lower_char a) (lower_char b)))
                (map ascii_of_nat (seq 0 256)))
              (map ascii_of_nat (seq 0 256)) = true) by (vm_compute; reflexivity).
  rewrite forallb_forall in H. specialize (H c (ascii_enumerated c)).
  rewrite forallb_forall in H. specialize (H c' (ascii_enumerated c')).
  by apply Bool.eqb_prop.
Qed.

Lemma case_variant_lower (s s' : string) :
  case_variant s s' = String.eqb (lower s) (lower s').
Proof.
  revert s'. induction s as [|c s IH]; intros [|c' s']; simpl; try done.
  rewrite same_letter_lower, IH. by destruct (Ascii.eqb _ _).
Qed.

Lemma case_variant_keyword (s : string) :
  case_variant s completion_keyword = String.eqb (lower s) "abgeschlossen".
Proof. by rewrite case_variant_lower. Qed.


(** ** Earned credits *)

Lemma Modul_typed_fields m :
  Modul.typed m = true →
  ∃ s z, Modul.status m = VStr s ∧ Modul.ects m = VInt z.
Proof.
  unfold Modul.typed. rewrite !andb_true_iff.
  intros [[[[_ He] Hs] _] _].
  destruct (Modul.status m); try discriminate.
  destruct (Modul.ects m); try discriminate. eauto.
Qed.

Lemma completed_credits_cons m ms :
  completed_credits (m :: ms) =
  (if is_completed m then credit_points m else 0) + completed_credits ms.
Proof. unfold completed_credits. simpl. by destruct (is_completed m). Qed.

Lemma completed_credits_app ms ms' :
  completed_credits (ms ++ ms') =
  completed_credits ms + completed_credits ms'.
Proof.
  induction ms as [|m ms IH]; [done|].
  rewrite <- app_comm_cons, !completed_credits_cons, IH. lia.
Qed.

Lemma earned_inner_loop ms a :
  forallb Modul.typed ms = true →
  for_each ms (λ earned mod',
    let! lowered := py_lower (Modul.status mod') in
    if String.eqb lowered "abgeschlossen"
    then py_add earned (Modul.ects mod')
    else Ok earned) (VInt a) =
  Ok (VInt (a + completed_credits ms)).
Proof.
  revert a. induction ms as [|m ms IH]; intros a Hty.
  - unfold completed_credits. simpl. by rewrite Z.add_0_r.
  - simpl in Hty. apply andb_true_iff in Hty as [Hm Hms].
    destruct (Modul_typed_fields m Hm) as (s & z & Hs & Hz).
    rewrite completed_credits_cons. cbn [for_each].
    unfold is_completed, credit_points. rewrite Hs, Hz. simpl.
    rewrite case_variant_keyword.
    destruct (String.eqb (lower s) "abgeschlossen"); simpl.
    + rewrite IH by done. by rewrite Z.add_assoc.
    + rewrite IH by done. by rewrite Z.add_0_l.
Qed.

Lemma earned_outer_loop ss a :
  forallb Semester.typed ss = true →
  for_each ss (λ earned sem,
    for_each (Semester.module sem) (λ earned mod',
      let! lowered := py_lower (Modul.status mod') in
      if String.eqb lowered "abgeschlossen"
      then py_add earned (Modul.ects mod')
      else Ok earned) earned) (VInt a) =
  Ok (VInt (a + completed_credits (concat (Semester.module <$> ss)))).
Proof.
  revert a. induction ss as [|sem ss IH]; intros a Hty.
  - unfold completed_credits. simpl. by rewrite Z.add_0_r.
  - simpl in Hty. apply andb_true_iff in Hty as [Hsem Hss].
    unfold Semester.typed in Hsem. rewrite !andb_true_iff in Hsem.
    destruct Hsem as [_ Hms].
    cbn [for_each]. rewrite earned_inner_loop by done. cbn [bind].
    rewrite IH by done. rewrite fmap_cons. cbn [concat].
    by rewrite completed_credits_app, Z.add_assoc.
Qed.

Lemma for_each_Forall2 {A S} (R : A → A → Prop) (body : S → A → result S)
    l l' acc :
  Forall2 R l l' → (∀ s x x', R x x' → body s x = body s x') →
  for_each l body acc = for_each l' body acc.
Proof.
  intros HR Hbody. revert acc.
  induction HR as [|x x' l l' Hx _ IH]; intros acc; [done|].
  simpl. rewrite (Hbody acc x x' Hx). destruct (body acc x'); simpl; auto.
Qed.


Lemma getFortschrittECTS_earned stg :
  Studiengang.typed stg = true →
  Studiengang.getFortschrittECTS stg = Ok (VInt (spec_earned_credits stg)).
Proof.
  unfold Studiengang.typed. rewrite !andb_true_iff. intros [_ Hss].
  unfold Studiengang.getFortschrittECTS. by rewrite earned_outer_loop.
Qed.



(** ** Grade average *)

Lemma collect_inner_loop ms noten :
  foldl (λ noten mod',
    match Modul.note mod' with
    | VNone => noten
    | n => noten ++ [n]
    end) noten ms = noten ++ omap present_note ms.
Proof.
  revert noten. induction ms as [|m ms IH]; intros noten.
  - simpl. by rewrite app_nil_r.
  - cbn [foldl]. rewrite IH.
    change (omap present_note (m :: ms)) with
      (match present_note m with
       | Some v => v :: omap present_note ms
       | None => omap present_note ms
       end).
    unfold present_note at 2.
    destruct (Modul.note m); try done; by rewrite <- app_assoc.
Qed.

Lemma collect_noten_present stg :
  Studiengang.collect_noten stg = omap present_note (all_modules stg).
Proof.
  unfold Studiengang.collect_noten, all_modules.
  enough (H : ∀ ss noten,
    foldl (λ noten sem,
      foldl (λ noten mod',
        match Modul.note mod' with
        | VNone => noten
        | n => noten ++ [n]
        end) noten (Semester.module sem)) noten ss =
    noten ++ omap present_note (concat (Semester.module <$> ss)))
    by apply (H _ []).
  induction ss as [|sem ss IH]; intros noten.
  - simpl. by rewrite app_nil_r.
  - cbn [foldl]. rewrite collect_inner_loop, IH, fmap_cons. cbn [concat].
    by rewrite omap_app, app_assoc.
Qed.

Lemma py_add_num a b x y :
  as_num a = Some x → as_num b = Some y →
  ∃ v z, py_add a b = Ok v ∧ as_num v = Some z ∧ (z == x + y)%Q.
Proof.
  intros Ha Hb.
  destruct a as [|[]| | | | |]; try discriminate;
  destruct b as [|[]| | | | |]; try discriminate;
  simpl in Ha, Hb; injection Ha as <-; injection Hb as <-;
  eexists _, _; (split_and!; [reflexivity | reflexivity |]);
  rewrite ?inject_Z_plus; reflexivity.
Qed.







(** ** Progress percentage *)





(** ** The scenario of [main] *)

(** 14 of 180 credits earned, that is 7.78 percent, and a grade average of
    2.15. *)
Example main_scenario :
  Studiengang.getFortschrittECTS main_stg = Ok (VInt 14) ∧
  DashboardService.progress_percentage main_stg = Ok (VFloat (1400 # 180)) ∧
  Studiengang.getNotendurchschnitt main_stg = Ok (VFloat (430 # 200)) ∧
  (1400 # 180 == 70 / 9)%Q ∧ (430 # 200 == 2.15)%Q.
Proof. by split_and!. Qed.

(** An upper-case status counts as completed, a grade without the status
    does not. *)
Example status_decides_credit :
  Studiengang.getFortschrittECTS
    (Studiengang.Build (VStr "Angewandte KI") (VInt 180)
       [Semester.Build (VInt 1) VNone VNone
          [Modul.init (VStr "Mathe I") (VInt 8) (VStr "ABGESCHLOSSEN") VNone;
           Modul.init (VStr "Programmierung") (VInt 10)
             (VStr "In Bearbeitung") (VFloat 1.0)]]) = Ok (VInt 8).
Proof. reflexivity. Qed.

(** ** Further properties of reconstruction *)

Lemma children_insert_ne {A} (f : pyval → result A) d k k' v :
  k' ≠ k → children f (<[k' := v]> d) k = children f d k.
Proof. intros Hne. unfold children. by rewrite lookup_insert_ne. Qed.

(** X1: reconstruction reads only the keys of its own fields: adding or
    changing any other key of a serialized record changes nothing, at each
    of the four levels. *)
Theorem from_dict_ignores_unknown_keys
    (d : gmap string pyval) (k : string) (v : pyval) :
  (k ∉ ["note"; "versuch"] →
   Pruefungsleistung.from_dict (VDict (<[k := v]> d)) =
   Pruefungsleistung.from_dict (VDict d)) ∧
  (k ∉ ["modulName"; "ects"; "status"; "note"; "pruefungen"] →
   Modul.from_dict (VDict (<[k := v]> d)) = Modul.from_dict (VDict d)) ∧
  (k ∉ ["semesterNummer"; "startDatum"; "endDatum"; "module"] →
   Semester.from_dict (VDict (<[k := v]> d)) =
   Semester.from_dict (VDict d)) ∧
  (k ∉ ["name"; "gesamtECTS"; "semester"] →
   Studiengang.from_dict (VDict (<[k := v]> d)) =
   Studiengang.from_dict (VDict d)).
Proof.
  split_and!; intros Hk; repeat (apply not_elem_of_cons in Hk as [? Hk]).
  - rewrite !Pruefungsleistung_from_dict_eq.
    by rewrite !lookup_insert_ne by done.
  - rewrite !Modul_from_dict_eq, children_insert_ne by done.
    by rewrite !lookup_insert_ne by done.
  - rewrite !Semester_from_dict_eq, children_insert_ne by done.
    by rewrite !lookup_insert_ne by done.
  - rewrite !Studiengang_from_dict_eq, children_insert_ne by done.
    by rewrite !lookup_insert_ne by done.
Qed.

Lemma from_dict_ignores_unknown_keys_witness :
  Studiengang.from_dict
    (VDict (<["version" := VInt 2]> {[ "name" := VStr "Angewandte KI";
                                      "gesamtECTS" := VInt 180 ]})) =
  Studiengang.from_dict
    (VDict {[ "name" := VStr "Angewandte KI"; "gesamtECTS" := VInt 180 ]}).
Proof.
  apply (from_dict_ignores_unknown_keys
           {[ "name" := VStr "Angewandte KI"; "gesamtECTS" := VInt 180 ]}
           "version" (VInt 2)).
  intros H. repeat (apply elem_of_cons in H as [H|H]; [discriminate|]).
  by apply elem_of_nil in H.
Defined.

(** X2: a serialized value that is not an object (a list, a string, a
    number, a boolean, [null]) is rejected with [TypeError] by every
    [from_dict], and a file holding such a document loads as [None]. *)
Theorem from_dict_rejects_non_object (v : pyval) :
  (∀ d, v ≠ VDict d) →
  Pruefungsleistung.from_dict v = Raise TypeError ∧
  Modul.from_dict v = Raise TypeError ∧
  Semester.from_dict v = Raise TypeError ∧
  Studiengang.from_dict v = Raise TypeError ∧
  ∀ fs datei, files fs !! datei = Some (Json v) →
    PersistenceService.loadData fs datei = Ok None.
Proof.
  intros Hv.
  assert (Hget : ∀ k, py_getitem v k = Raise TypeError).
  { intros k. destruct v; try done. by destruct (Hv d). }
  split_and!.
  - unfold Pruefungsleistung.from_dict. by rewrite Hget.
  - unfold Modul.from_dict. by rewrite Hget.
  - unfold Semester.from_dict. by rewrite Hget.
  - unfold Studiengang.from_dict. by rewrite Hget.
  - intros fs datei Hf. rewrite (loadData_of_document _ _ _ Hf).
    unfold Studiengang.from_dict. by rewrite Hget.
Qed.

Lemma from_dict_rejects_non_object_witness :
  Studiengang.from_dict (VList []) = Raise TypeError.
Proof.
  apply (from_dict_rejects_non_object (VList [])). intros d. discriminate.
Defined.

(** X3: an optional field given as an explicit [null] is reconstructed
    exactly like a missing one: [note] of a module, [startDatum] and
    [endDatum] of a semester. *)
Theorem explicit_null_is_missing (d : gmap string pyval) :
  Modul.from_dict (VDict (<["note" := VNone]> d)) =
    Modul.from_dict (VDict (delete "note" d)) ∧
  Semester.from_dict (VDict (<["startDatum" := VNone]> d)) =
    Semester.from_dict (VDict (delete "startDatum" d)) ∧
  Semester.from_dict (VDict (<["endDatum" := VNone]> d)) =
    Semester.from_dict (VDict (delete "endDatum" d)).
Proof.
  split_and!.
  - rewrite !Modul_from_dict_eq.
    rewrite children_insert_ne, children_delete_ne by done.
    rewrite lookup_insert_eq, lookup_delete_eq.
    by rewrite !lookup_insert_ne, !lookup_delete_ne by done.
  - rewrite !Semester_from_dict_eq.
    rewrite children_insert_ne, children_delete_ne by done.
    rewrite lookup_insert_eq, lookup_delete_eq.
    by rewrite !lookup_insert_ne, !lookup_delete_ne by done.
  - rewrite !Semester_from_dict_eq.
    rewrite children_insert_ne, children_delete_ne by done.
    rewrite lookup_insert_eq, lookup_delete_eq.
    by rewrite !lookup_insert_ne, !lookup_delete_ne by done.
Qed.

Lemma comprehension_first_raises {A B} (f : A → result B) x l e :
  f x = Raise e → comprehension f (x :: l) = Raise e.
Proof. intros Hx. simpl. by rewrite Hx. Qed.

Lemma children_of_non_list {A} (f : pyval → result A) d k c :
  (∀ s, f (VStr s) = Raise TypeError) →
  d !! k = Some c → is_list c = false →
  children f d k = if no_items c then Ok [] else Raise TypeError.
Proof.
  intros Hf Hk Hc. unfold children. rewrite Hk. simpl.
  destruct c as [| | | |s|l|m]; try done.
  - destruct s as [|a s]; [done|]. simpl. by rewrite Hf.
  - simpl. destruct (map_to_list m) as [|[key val] kvs] eqn:Hkvs.
    + apply map_to_list_empty_iff in Hkvs as ->. by rewrite map_size_empty.
    + rewrite fmap_cons. cbn [fmap list_fmap].
      erewrite comprehension_first_raises by apply Hf.
      destruct (size m) eqn:Hsize; [|done].
      apply map_size_empty_iff in Hsize as ->.
      by rewrite map_to_list_empty in Hkvs.
Qed.

(** X4: a child-list key that is present but does not hold a list is not
    treated like a missing one.  [null], a boolean or a number is not
    iterable and a non-empty string or object yields strings, so
    reconstruction raises [TypeError]; only the empty string and the empty
    object pass, as an empty child sequence. *)
Theorem from_dict_child_not_a_list (d : gmap string pyval) (c : pyval) :
  is_list c = false →
  (∀ n g, d !! "name" = Some n → d !! "gesamtECTS" = Some g →
     d !! "semester" = Some c →
     Studiengang.from_dict (VDict d) =
     if no_items c then Ok (Studiengang.Build n g [])
     else Raise TypeError) ∧
  (∀ n, d !! "semesterNummer" = Some n → d !! "module" = Some c →
     Semester.from_dict (VDict d) =
     if no_items c
     then Ok (Semester.Build n (default VNone (d !! "startDatum"))
                (default VNone (d !! "endDatum")) [])
     else Raise TypeError) ∧
  (∀ n e s, d !! "modulName" = Some n → d !! "ects" = Some e →
     d !! "status" = Some s → d !! "pruefungen" = Some c →
     Modul.from_dict (VDict d) =
     if no_items c then Ok (Modul.Build n e s (default VNone (d !! "note")) [])
     else Raise TypeError).
Proof.
  intros Hc. split_and!.
  - intros n g Hn Hg Hs. rewrite Studiengang_from_dict_eq, Hn, Hg.
    rewrite (children_of_non_list _ _ _ c) by done. by destruct (no_items c).
  - intros n Hn Hm. rewrite Semester_from_dict_eq, Hn.
    rewrite (children_of_non_list _ _ _ c) by done. by destruct (no_items c).
  - intros n e s Hn He Hs Hp. rewrite Modul_from_dict_eq, Hn, He, Hs.
    rewrite (children_of_non_list _ _ _ c) by done. by destruct (no_items c).
Qed.

Lemma from_dict_child_not_a_list_witness :
  Studiengang.from_dict
    (VDict {[ "name" := VStr "Angewandte KI"; "gesamtECTS" := VInt 180;
              "semester" := VNone ]}) = Raise TypeError.
Proof.
  apply (proj1 (from_dict_child_not_a_list
                  {[ "name" := VStr "Angewandte KI"; "gesamtECTS" := VInt 180;
                     "semester" := VNone ]} VNone eq_refl)
           (VStr "Angewandte KI") (VInt 180)); reflexivity.
Defined.

(** ** Documents of the saved shape *)

Lemma comprehension_inverse {A} (f : pyval → result A) (g : A → pyval) l :
  Forall (λ v, ∃ x, f v = Ok x ∧ g x = v) l →
  ∃ xs, comprehension f l = Ok xs ∧ g <$> xs = l.
Proof.
  induction 1 as [|v l (x & Hx & Hg) _ (xs & Hxs & Hl)].
  - by exists [].
  - exists (x :: xs). cbn [comprehension]. rewrite Hx, Hxs.
    split; [done|]. by rewrite fmap_cons, Hg, Hl.
Qed.

Lemma lookup_of_dom (d : gmap string pyval) (ks : gset string) k :
  dom d = ks → k ∈ ks → ∃ v, d !! k = Some v.
Proof. intros <- Hk. by apply elem_of_dom in Hk. Qed.

Lemma lookup_outside_dom (d : gmap string pyval) (ks : gset string) k :
  dom d = ks → k ∉ ks → d !! k = None.
Proof. intros <- Hk. by apply not_elem_of_dom. Qed.

Ltac dict_field d H k :=
  let v := fresh "v" in
  let Hv := fresh "Hv" in
  destruct (lookup_of_dom d _ k H) as [v Hv];
    [rewrite ?elem_of_union, ?elem_of_singleton; auto 10|].

Ltac dict_ext H :=
  f_equal; apply map_eq; intros i;
  repeat match goal with
  | |- context [ (<[?k := _]> _) !! i ] =>
      destruct (decide (i = k)) as [->|?];
      [ by rewrite lookup_insert_eq | rewrite lookup_insert_ne by done ]
  | |- context [ {[?k := _]} !! i ] =>
      destruct (decide (i = k)) as [->|?];
      [ by rewrite lookup_singleton_eq | rewrite lookup_singleton_ne by done ]
  end;
  first [eapply lookup_outside_dom | symmetry; eapply lookup_outside_dom];
    [exact H | rewrite ?elem_of_union, ?elem_of_singleton; intuition].

Lemma pruefung_shape_decodes v :
  pruefung_shape v →
  ∃ p, Pruefungsleistung.from_dict v = Ok p ∧ Pruefungsleistung.to_dict p = v.
Proof.
  intros (d & -> & Hdom).
  dict_field d Hdom "note". dict_field d Hdom "versuch".
  eexists. rewrite Pruefungsleistung_from_dict_eq, Hv, Hv0.
  split; [done|]. unfold Pruefungsleistung.to_dict. simpl. dict_ext Hdom.
Qed.

Lemma children_of_list {A} (f : pyval → result A) d k l :
  d !! k = Some (VList l) → children f d k = comprehension f l.
Proof. intros Hk. unfold children. by rewrite Hk. Qed.

Lemma modul_shape_decodes v :
  modul_shape v → ∃ m, Modul.from_dict v = Ok m ∧ Modul.to_dict m = v.
Proof.
  intros (d & l & -> & Hdom & Hl & Hall).
  dict_field d Hdom "modulName". dict_field d Hdom "ects".
  dict_field d Hdom "status". dict_field d Hdom "note".
  destruct (comprehension_inverse Pruefungsleistung.from_dict
              Pruefungsleistung.to_dict l) as (ps & Hps & Hback).
  { eapply Forall_impl; [exact Hall|]. apply pruefung_shape_decodes. }
  eexists. rewrite Modul_from_dict_eq, Hv, Hv0, Hv1, Hv2.
  rewrite (children_of_list _ _ _ l Hl), Hps. split; [done|].
  unfold Modul.to_dict. simpl. rewrite Hback. dict_ext Hdom.
Qed.

Lemma semester_shape_decodes v :
  semester_shape v → ∃ s, Semester.from_dict v = Ok s ∧ Semester.to_dict s = v.
Proof.
  intros (d & l & -> & Hdom & Hl & Hall).
  dict_field d Hdom "semesterNummer". dict_field d Hdom "startDatum".
  dict_field d Hdom "endDatum".
  destruct (comprehension_inverse Modul.from_dict Modul.to_dict l)
    as (ms & Hms & Hback).
  { eapply Forall_impl; [exact Hall|]. apply modul_shape_decodes. }
  eexists. rewrite Semester_from_dict_eq, Hv, Hv0, Hv1.
  rewrite (children_of_list _ _ _ l Hl), Hms. split; [done|].
  unfold Semester.to_dict. simpl. rewrite Hback. dict_ext Hdom.
Qed.

(** X5: a document of the saved shape (exactly the keys of the classes at
    each level, the child keys holding lists) is reconstructed without
    error, and serializing the reconstructed program gives the document
    back; with the round trip of save and load, the records and the
    documents of that shape correspond one to one. *)
Theorem shaped_document_decodes (v : pyval) :
  studiengang_shape v →
  ∃ stg, Studiengang.from_dict v = Ok stg ∧ Studiengang.to_dict stg = v.
Proof.
  intros (d & l & -> & Hdom & Hl & Hall).
  dict_field d Hdom "name". dict_field d Hdom "gesamtECTS".
  destruct (comprehension_inverse Semester.from_dict Semester.to_dict l)
    as (ss & Hss & Hback).
  { eapply Forall_impl; [exact Hall|]. apply semester_shape_decodes. }
  eexists. rewrite Studiengang_from_dict_eq, Hv, Hv0.
  rewrite (children_of_list _ _ _ l Hl), Hss. split; [done|].
  unfold Studiengang.to_dict. simpl. rewrite Hback. dict_ext Hdom.
Qed.

Lemma shaped_document_decodes_witness :
  ∃ stg, Studiengang.from_dict (Studiengang.to_dict main_stg) = Ok stg ∧
         Studiengang.to_dict stg = Studiengang.to_dict main_stg.
Proof.
  apply (shaped_document_decodes (Studiengang.to_dict main_stg)).
  apply Studiengang_to_dict_shape.
Defined.

(** ** Further properties of the persistence service *)









(** ** Further properties of the module list *)

Lemma list_remove_absent (x : ref) (l : list ref) :
  x ∉ l → list_remove x l = Raise ValueError.
Proof.
  induction l as [|y l IH]; intros Hx; [done|].
  apply not_elem_of_cons in Hx as [Hne Hx]. simpl.
  rewrite decide_False by done. by rewrite IH.
Qed.

Lemma list_remove_snoc_absent (x : ref) (l : list ref) :
  x ∉ l → list_remove x (l ++ [x]) = Ok l.
Proof.
  induction l as [|y l IH]; intros Hx; simpl.
  - by rewrite decide_True.
  - apply not_elem_of_cons in Hx as [Hne Hx].
    rewrite decide_False by done. by rewrite IH.
Qed.

Lemma list_remove_app_present (x : ref) (l k : list ref) l' :
  list_remove x l = Ok l' → list_remove x (l ++ k) = Ok (l' ++ k).
Proof.
  revert l'. induction l as [|y l IH]; intros l'; simpl; [done|].
  destruct (decide (y = x)); [by intros [= ->]|].
  destruct (list_remove x l) as [r|]; simpl; [|done].
  intros [= <-]. by rewrite (IH r).
Qed.

(** X9: [removeModul] raises [ValueError] exactly when the semester does
    not hold the module; it raises nothing else. *)
Theorem removeModul_raises_iff_absent (self : Semester.obj) (m : ref) :
  (Semester.removeModul self m = Raise ValueError ↔
   m ∉ Semester.module self) ∧
  ∀ e, Semester.removeModul self m = Raise e → e = ValueError.
Proof.
  unfold Semester.removeModul.
  destruct (decide (m ∈ Semester.module self)) as [Hin|Hout].
  - destruct (list_remove_first m _ Hin) as (i & _ & _ & ->). simpl.
    split; [|done]. split; [done|]. by intros Hout.
  - rewrite list_remove_absent by done. simpl.
    split; [done|]. by intros e [= <-].
Qed.

Lemma removeModul_raises_iff_absent_witness :
  Semester.removeModul
    (Semester.Build (VInt 1) VNone VNone [3; 5]%positive) 7%positive =
  Raise ValueError.
Proof.
  apply (proj1 (removeModul_raises_iff_absent
                  (Semester.Build (VInt 1) VNone VNone [3; 5]%positive)
                  7%positive)).
  simpl. intros H.
  repeat (apply elem_of_cons in H as [H|H]; [discriminate|]).
  by apply elem_of_nil in H.
Defined.

(** X10: removing a module right after adding it undoes the addition when
    the semester did not hold the module before; when it did, the earlier
    entry is the one removed and the added entry stays at the end. *)
Theorem removeModul_after_addModul (self : Semester.obj) (m : ref) :
  (m ∉ Semester.module self →
   Semester.removeModul (Semester.addModul self m) m = Ok self) ∧
  (∀ self', Semester.removeModul self m = Ok self' →
   Semester.removeModul (Semester.addModul self m) m =
   Ok (Semester.addModul self' m)).
Proof.
  unfold Semester.removeModul, Semester.addModul. split.
  - intros Hout. simpl. rewrite list_remove_snoc_absent by done.
    by destruct self.
  - intros self'. simpl.
    destruct (list_remove m (Semester.module self)) as [l|] eqn:Hl;
      simpl; [|done].
    intros [= <-]. by rewrite (list_remove_app_present _ _ _ l).
Qed.

Lemma removeModul_after_addModul_witness :
  Semester.removeModul
    (Semester.addModul
       (Semester.Build (VInt 1) VNone VNone [3; 5]%positive) 7%positive)
    7%positive =
  Ok (Semester.Build (VInt 1) VNone VNone [3; 5]%positive).
Proof.
  apply (proj1 (removeModul_after_addModul
                  (Semester.Build (VInt 1) VNone VNone [3; 5]%positive)
                  7%positive)).
  simpl. intros H.
  repeat (apply elem_of_cons in H as [H|H]; [discriminate|]).
  by apply elem_of_nil in H.
Defined.

(** ** Further properties of the earned credits *)

Lemma elem_of_all_modules stg m :
  m ∈ all_modules stg ↔
  ∃ sem, sem ∈ Studiengang.semester stg ∧ m ∈ Semester.module sem.
Proof.
  unfold all_modules. induction (Studiengang.semester stg) as [|s ss IH].
  - split; [by intros ?%elem_of_nil | by intros (? & ?%elem_of_nil & _)].
  - rewrite fmap_cons. cbn [concat]. rewrite elem_of_app, IH. split.
    + intros [Hm|(sem & Hsem & Hm)].
      * exists s. split; [apply list_elem_of_here | done].
      * exists sem. split; [by apply list_elem_of_further | done].
    + intros (sem & Hsem & Hm).
      apply elem_of_cons in Hsem as [->|Hsem]; [by left | right; eauto].
Qed.

Lemma all_modules_addSemester stg sem :
  all_modules (Studiengang.addSemester stg sem) =
  all_modules stg ++ Semester.module sem.
Proof.
  unfold all_modules, Studiengang.addSemester. simpl.
  rewrite fmap_app, concat_app. simpl. by rewrite app_nil_r.
Qed.

Lemma typed_addSemester stg sem :
  Studiengang.typed stg = true → Semester.typed sem = true →
  Studiengang.typed (Studiengang.addSemester stg sem) = true.
Proof.
  unfold Studiengang.typed, Studiengang.addSemester. simpl.
  rewrite !andb_true_iff, forallb_app. intros [[Hn Hg] Hss] Hsem.
  split_and!; [done | done |]. rewrite Hss. simpl. by rewrite Hsem.
Qed.

(** X11: the earned credits are additive over semesters: for typed data,
    adding a semester to a program raises the earned credits by what that
    semester alone earns. *)
Theorem getFortschrittECTS_addSemester
    (stg : Studiengang.t) (sem : Semester.t) :
  Studiengang.typed stg = true → Semester.typed sem = true →
  ∃ a b,
    Studiengang.getFortschrittECTS stg = Ok (VInt a) ∧
    Studiengang.getFortschrittECTS
      (Studiengang.addSemester
         (Studiengang.init (Studiengang.name stg) (Studiengang.gesamtECTS stg))
         sem) = Ok (VInt b) ∧
    Studiengang.getFortschrittECTS (Studiengang.addSemester stg sem) =
      Ok (VInt (a + b)).
Proof.
  intros Hstg Hsem.
  assert (Studiengang.typed
            (Studiengang.init (Studiengang.name stg)
               (Studiengang.gesamtECTS stg)) = true) as Hinit.
  { revert Hstg. unfold Studiengang.typed. simpl.
    rewrite !andb_true_iff. by intros [[-> ->] _]. }
  eexists _, _. split_and!.
  - by apply getFortschrittECTS_earned.
  - by apply getFortschrittECTS_earned, typed_addSemester.
  - rewrite getFortschrittECTS_earned by by apply typed_addSemester.
    unfold spec_earned_credits. rewrite !all_modules_addSemester.
    by rewrite !completed_credits_app.
Qed.

Lemma getFortschrittECTS_addSemester_witness :
  ∃ a b,
    Studiengang.getFortschrittECTS main_stg = Ok (VInt a) ∧
    Studiengang.getFortschrittECTS
      (Studiengang.addSemester
         (Studiengang.init (Studiengang.name main_stg)
            (Studiengang.gesamtECTS main_stg)) sem2) = Ok (VInt b) ∧
    Studiengang.getFortschrittECTS (Studiengang.addSemester main_stg sem2) =
      Ok (VInt (a + b)).
Proof.
  apply (getFortschrittECTS_addSemester main_stg sem2); reflexivity.
Defined.

(** X12: the earned credits depend on the status and the credit points of
    the modules only: two programs whose modules agree on these, position
    by position, earn the same (or fail alike), whatever their names,
    dates, grades and attempts; so recording an exam attempt never changes
    the earned credits. *)
Theorem getFortschrittECTS_ignores_grades (stg stg' : Studiengang.t) :
  Forall2 (λ sem sem',
             Forall2 same_credit_data
               (Semester.module sem) (Semester.module sem'))
    (Studiengang.semester stg) (Studiengang.semester stg') →
  Studiengang.getFortschrittECTS stg = Studiengang.getFortschrittECTS stg' ∧
  ∀ m p, same_credit_data m (Modul.addPruefungsleistung m p).
Proof.
  intros Hsame. split; [|done].
  unfold Studiengang.getFortschrittECTS.
  eapply for_each_Forall2; [exact Hsame|].
  intros earned sem sem' Hms. simpl.
  eapply for_each_Forall2; [exact Hms|].
  intros acc m m' [Hs He]. simpl. by rewrite Hs, He.
Qed.

Lemma getFortschrittECTS_ignores_grades_witness :
  Studiengang.getFortschrittECTS
    (Studiengang.Build (VStr "Angewandte KI") (VInt 180)
       [Semester.Build (VInt 1) VNone VNone [mathe]]) =
  Studiengang.getFortschrittECTS
    (Studiengang.Build (VStr "Angewandte KI") (VInt 180)
       [Semester.Build (VInt 1) VNone VNone
          [Modul.addPruefungsleistung mathe
             (Pruefungsleistung.init (VFloat 5.0) (VInt 2))]]).
Proof.
  apply (getFortschrittECTS_ignores_grades
           (Studiengang.Build (VStr "Angewandte KI") (VInt 180)
              [Semester.Build (VInt 1) VNone VNone [mathe]])
           (Studiengang.Build (VStr "Angewandte KI") (VInt 180)
              [Semester.Build (VInt 1) VNone VNone
                 [Modul.addPruefungsleistung mathe
                    (Pruefungsleistung.init (VFloat 5.0) (VInt 2))]])).
  simpl. repeat constructor.
Defined.

Lemma for_each_raises {A S} (body : S → A → result S) l x acc :
  x ∈ l → (∀ s, raises (body s x)) → raises (for_each l body acc).
Proof.
  intros Hin Hx. revert acc.
  induction l as [|y l IH]; intros acc; [by apply elem_of_nil in Hin|].
  apply elem_of_cons in Hin as [<-|Hin]; simpl.
  - destruct (Hx acc) as [e ->]. by exists e.
  - destruct (body acc y) as [s|e]; simpl; [by apply IH | by exists e].
Qed.

(** X13: [getFortschrittECTS] calls [lower] on the status of every module,
    completed or not: if any module of any semester has a status that is
    not a string, the computation raises instead of returning credits.
    Reconstruction does not check types, so a document that loads can make
    the metric fail. *)
Theorem getFortschrittECTS_raises_on_non_string_status
    (stg : Studiengang.t) (m : Modul.t) :
  m ∈ all_modules stg → is_str (Modul.status m) = false →
  raises (Studiengang.getFortschrittECTS stg) ∧
  raises (DashboardService.progress_percentage stg).
Proof.
  intros Hm Hstatus.
  assert (raises (Studiengang.getFortschrittECTS stg)) as Hraises.
  { apply elem_of_all_modules in Hm as (sem & Hsem & Hm).
    unfold Studiengang.getFortschrittECTS.
    eapply for_each_raises; [exact Hsem|]. intros earned.
    eapply for_each_raises; [exact Hm|]. intros acc.
    destruct (Modul.status m); try discriminate; by eexists. }
  split; [done|]. unfold DashboardService.progress_percentage.
  destruct Hraises as [e ->]. by exists e.
Qed.

Lemma getFortschrittECTS_raises_on_non_string_status_witness :
  ∃ stg,
    Studiengang.from_dict
      (VDict {[ "name" := VStr "Angewandte KI"; "gesamtECTS" := VInt 180;
                "semester" := VList [VDict {[
                  "semesterNummer" := VInt 1;
                  "module" := VList [VDict {[
                    "modulName" := VStr "Mathe I"; "ects" := VInt 8;
                    "status" := VInt 1 ]}] ]}] ]}) = Ok stg ∧
    raises (Studiengang.getFortschrittECTS stg).
Proof.
  eexists. split; [reflexivity|].
  eapply getFortschrittECTS_raises_on_non_string_status;
    [apply list_elem_of_here | reflexivity].
Defined.

(** ** Further properties of the grade average *)










Lemma py_add_non_number a v x :
  as_num a = Some x → as_num v = None → py_add a v = Raise TypeError.
Proof.
  intros Ha Hv.
  destruct a as [|[]| | | | |]; try discriminate;
  destruct v as [|[]| | | | |]; try discriminate; reflexivity.
Qed.

Lemma py_sum_raises l v acc a :
  as_num acc = Some a → v ∈ l → as_num v = None →
  raises (for_each l py_add acc).
Proof.
  intros Hacc Hin Hv. revert acc a Hacc.
  induction l as [|w l IH]; intros acc a Hacc; [by apply elem_of_nil in Hin|].
  cbn [for_each]. destruct (as_num w) as [y|] eqn:Hw.
  - destruct (py_add_num acc w a y Hacc Hw) as (r & z & -> & Hr & _).
    apply elem_of_cons in Hin as [->|Hin]; [congruence|].
    cbn [bind]. by eapply IH.
  - rewrite (py_add_non_number acc w a) by done. by eexists.
Qed.

(** X16: [getNotendurchschnitt] skips only [None]: if any module carries a
    final grade that is present but not a number (a string, a list, an
    object), the computation raises instead of returning an average. *)
Theorem getNotendurchschnitt_raises_on_non_numeric_grade
    (stg : Studiengang.t) (m : Modul.t) :
  m ∈ all_modules stg →
  Modul.note m ≠ VNone → as_num (Modul.note m) = None →
  raises (Studiengang.getNotendurchschnitt stg).
Proof.
  intros Hm Hpresent Hnum.
  assert (Modul.note m ∈ Studiengang.collect_noten stg) as Hin.
  { rewrite collect_noten_present. apply list_elem_of_omap. exists m.
    split; [done|]. unfold present_note. by destruct (Modul.note m). }
  unfold Studiengang.getNotendurchschnitt.
  destruct (Studiengang.collect_noten stg) as [|n noten];
    [by apply elem_of_nil in Hin|].
  destruct (py_sum_raises (n :: noten) (Modul.note m) (VInt 0) 0%Q
              eq_refl Hin Hnum) as [e He].
  unfold py_sum. rewrite He. by exists e.
Qed.

Lemma getNotendurchschnitt_raises_on_non_numeric_grade_witness :
  raises
    (Studiengang.getNotendurchschnitt
       (Studiengang.Build (VStr "Angewandte KI") (VInt 180)
          [Semester.Build (VInt 1) VNone VNone
             [Modul.init (VStr "Mathe I") (VInt 8) (VStr "Abgeschlossen")
                (VStr "2.3")]])).
Proof.
  eapply getNotendurchschnitt_raises_on_non_numeric_grade;
    [apply list_elem_of_here | discriminate | reflexivity].
Defined.

(** ** Bounds on the progress *)

Lemma completed_credits_bounds ms :
  Forall (λ m, 0 ≤ credit_points m) ms →
  0 ≤ completed_credits ms ≤ total_credits ms.
Proof.
  induction 1 as [|m ms Hm _ IH].
  - done.
  - rewrite completed_credits_cons. unfold total_credits in *.
    rewrite fmap_cons. cbn [foldr]. destruct (is_completed m); lia.
Qed.

Lemma completed_credits_all ms :
  Forall (λ m, is_completed m = true) ms →
  completed_credits ms = total_credits ms.
Proof.
  induction 1 as [|m ms Hm _ IH]; [done|].
  rewrite completed_credits_cons, Hm, IH. unfold total_credits.
  by rewrite fmap_cons.
Qed.

(** X17: with non-negative credit points, the earned credits of a typed
    program lie between [0] and the credit points of all its modules, and
    reach that total when every module is completed. *)
Theorem getFortschrittECTS_bounds (stg : Studiengang.t) :
  Studiengang.typed stg = true →
  Forall (λ m, 0 ≤ credit_points m) (all_modules stg) →
  ∃ earned,
    Studiengang.getFortschrittECTS stg = Ok (VInt earned) ∧
    0 ≤ earned ≤ total_credits (all_modules stg) ∧
    (Forall (λ m, is_completed m = true) (all_modules stg) →
     earned = total_credits (all_modules stg)).
Proof.
  intros Hty Hpos. eexists. split_and!.
  - by apply getFortschrittECTS_earned.
  - by apply completed_credits_bounds.
  - by apply completed_credits_bounds.
  - apply completed_credits_all.
Qed.

Lemma getFortschrittECTS_bounds_witness :
  ∃ earned,
    Studiengang.getFortschrittECTS main_stg = Ok (VInt earned) ∧
    0 ≤ earned ≤ 24.
Proof.
  destruct (getFortschrittECTS_bounds main_stg) as (e & He & Hb & _).
  - reflexivity.
  - change (all_modules main_stg) with [mathe; programmierung; datenbanken].
    repeat constructor; discriminate.
  - exists e. split; [exact He | exact Hb].
Defined.





(** ** Order and errors of reconstruction *)

Lemma comprehension_Ok_iff {A B} (f : A → result B) l ys :
  comprehension f l = Ok ys ↔ Forall2 (λ x y, f x = Ok y) l ys.
Proof.
  revert ys. induction l as [|x l IH]; intros ys; simpl.
  - split; [intros [= <-]; constructor | by intros ->%Forall2_nil_inv_l].
  - destruct (f x) as [y|e] eqn:Hx; simpl.
    + destruct (comprehension f l) as [zs|e] eqn:Hl; simpl.
      * split.
        -- intros [= <-]. constructor; [done | by apply IH].
        -- intros (y' & zs' & Hy & Hzs & ->)%Forall2_cons_inv_l.
           apply IH in Hzs. congruence.
      * split; [done|].
        intros (y' & zs' & Hy & Hzs & ->)%Forall2_cons_inv_l.
        apply IH in Hzs. discriminate.
    + split; [done|].
      intros (y' & zs' & Hy & Hzs & ->)%Forall2_cons_inv_l. congruence.
Qed.

Lemma result_map_Ok_inv {A B} (f : A → B) r b :
  result_map f r = Ok b → ∃ a, r = Ok a ∧ b = f a.
Proof. destruct r as [a|e]; simpl; [intros [= <-]; eauto | done]. Qed.

(** X19: reconstruction keeps the number and the order of children: when
    a record with a child list is reconstructed, the children of the result
    are the reconstructions of the listed records, position by position,
    at program, semester and module level; no child is dropped, added or
    moved. *)
Theorem from_dict_children_in_order (d : gmap string pyval) (l : list pyval) :
  (∀ stg, d !! "semester" = Some (VList l) →
     Studiengang.from_dict (VDict d) = Ok stg →
     Forall2 (λ v s, Semester.from_dict v = Ok s)
       l (Studiengang.semester stg)) ∧
  (∀ sem, d !! "module" = Some (VList l) →
     Semester.from_dict (VDict d) = Ok sem →
     Forall2 (λ v m, Modul.from_dict v = Ok m) l (Semester.module sem)) ∧
  (∀ m, d !! "pruefungen" = Some (VList l) →
     Modul.from_dict (VDict d) = Ok m →
     Forall2 (λ v p, Pruefungsleistung.from_dict v = Ok p)
       l (Modul.pruefungen m)).
Proof.
  split_and!.
  - intros stg Hl. rewrite Studiengang_from_dict_eq.
    destruct (d !! "name"), (d !! "gesamtECTS"); try done.
    rewrite (children_of_list _ _ _ l Hl).
    intros (ss & Hss & ->)%result_map_Ok_inv. by apply comprehension_Ok_iff.
  - intros sem Hl. rewrite Semester_from_dict_eq.
    destruct (d !! "semesterNummer"); try done.
    rewrite (children_of_list _ _ _ l Hl).
    intros (ms & Hms & ->)%result_map_Ok_inv. by apply comprehension_Ok_iff.
  - intros m Hl. rewrite Modul_from_dict_eq.
    destruct (d !! "modulName"), (d !! "ects"), (d !! "status"); try done.
    rewrite (children_of_list _ _ _ l Hl).
    intros (ps & Hps & ->)%result_map_Ok_inv. by apply comprehension_Ok_iff.
Qed.

Lemma from_dict_children_in_order_witness :
  Forall2 (λ v s, Semester.from_dict v = Ok s)
    (Semester.to_dict <$> Studiengang.semester main_stg)
    (Studiengang.semester main_stg).
Proof.
  apply (proj1 (from_dict_children_in_order
                  {[ "name" := VStr "Angewandte KI"; "gesamtECTS" := VInt 180;
                     "semester" :=
                       VList (Semester.to_dict <$>
                                Studiengang.semester main_stg) ]}
                  (Semester.to_dict <$> Studiengang.semester main_stg))
           main_stg); reflexivity.
Defined.

(** X20: a missing required key is reported as a [KeyError] naming it; the
    keys are read in the order of the constructor arguments, before the
    child list is looked at, so the first missing one is named whatever
    else the record holds. *)
Theorem from_dict_names_first_missing_key (d : gmap string pyval) :
  (d !! "name" = None →
   Studiengang.from_dict (VDict d) = Raise (KeyError "name")) ∧
  (is_Some (d !! "name") → d !! "gesamtECTS" = None →
   Studiengang.from_dict (VDict d) = Raise (KeyError "gesamtECTS")) ∧
  (d !! "semesterNummer" = None →
   Semester.from_dict (VDict d) = Raise (KeyError "semesterNummer")) ∧
  (d !! "modulName" = None →
   Modul.from_dict (VDict d) = Raise (KeyError "modulName")) ∧
  (is_Some (d !! "modulName") → d !! "ects" = None →
   Modul.from_dict (VDict d) = Raise (KeyError "ects")) ∧
  (is_Some (d !! "modulName") → is_Some (d !! "ects") →
   d !! "status" = None →
   Modul.from_dict (VDict d) = Raise (KeyError "status")) ∧
  (d !! "note" = None →
   Pruefungsleistung.from_dict (VDict d) = Raise (KeyError "note")) ∧
  (is_Some (d !! "note") → d !! "versuch" = None →
   Pruefungsleistung.from_dict (VDict d) = Raise (KeyError "versuch")).
Proof.
  rewrite Studiengang_from_dict_eq, Semester_from_dict_eq,
    Modul_from_dict_eq, Pruefungsleistung_from_dict_eq.
  split_and!.
  - by intros ->.
  - by intros [? ->] ->.
  - by intros ->.
  - by intros ->.
  - by intros [? ->] ->.
  - by intros [? ->] [? ->] ->.
  - by intros ->.
  - by intros [? ->] ->.
Qed.

Lemma from_dict_names_first_missing_key_witness :
  Studiengang.from_dict
    (VDict {[ "name" := VStr "Angewandte KI"; "semester" := VNone ]}) =
  Raise (KeyError "gesamtECTS").
Proof.
  apply (from_dict_names_first_missing_key
           {[ "name" := VStr "Angewandte KI"; "semester" := VNone ]});
    [by eexists | reflexivity].
Defined.

(** X21: each entity class round-trips on its own: reconstructing the
    serialized form of an exam attempt, a module or a semester gives the
    entity back, with its children in order. *)
Theorem entity_round_trips :
  (∀ p, Pruefungsleistung.from_dict (Pruefungsleistung.to_dict p) = Ok p) ∧
  (∀ m, Modul.from_dict (Modul.to_dict m) = Ok m) ∧
  (∀ s, Semester.from_dict (Semester.to_dict s) = Ok s).
Proof.
  split_and!.
  - apply Pruefungsleistung_round_trip.
  - apply Modul_round_trip.
  - apply Semester_round_trip.
Qed.

(** X22: a module keeps every attempt it is given, in the order given: a
    module built by the constructor and then given the attempts [ps] one by
    one holds exactly [ps], keeps its name, credits and status, and shows
    the grade of the last attempt, or the constructor's grade when [ps] is
    empty. *)
Theorem attempts_recorded_in_order
    (n e s g : pyval) (ps : list Pruefungsleistung.t) :
  let m := foldl Modul.addPruefungsleistung (Modul.init n e s g) ps in
  Modul.pruefungen m = ps ∧
  Modul.getAktuelleNote m = default g (Pruefungsleistung.note <$> last ps) ∧
  (Modul.modulName m, Modul.ects m, Modul.status m) = (n, e, s).
Proof.
  simpl. induction ps as [|p ps IH] using rev_ind; [done|].
  rewrite foldl_addPruefungsleistung_snoc. destruct IH as (Hps & _ & Hrest).
  split_and!.
  - simpl. by rewrite Hps.
  - by rewrite last_snoc.
  - exact Hrest.
Qed.
